(** * Password generator: the strength checker and the generation loop of app.py

    A shallow embedding of [check_password_strength] and [generate_password]
    and the properties of the specification that are about them.

    Modelling choices.
    - A Python [str] is a list of characters; a character is a code point below
      256 (Rocq's [ascii]).  [str.lower], [str.isupper], [str.islower] and
      [str.isdigit] are Python's on that range (ASCII and Latin-1).  Every
      string the generator builds is ASCII.
    - The module-level tables [COMMON_WORDS] and [KEYBOARD_PATTERNS] are Python
      lists held in the module's namespace: they are fields of the program
      state [world], read by the checker.
    - [secrets.choice] reads an entropy tape ([nat -> nat]); the number of
      cells read so far is part of the state.
    - Exceptions are an outcome of the monad [M]; [generate_password] catches
      them as the source does.
    - [generate_password] is modelled from the point where the request has been
      parsed (lines 94-119 under the [try] of line 85); [request.get_json],
      [int(...)] and [data.get] belong to the transport. *)

From Stdlib Require Import List Ascii String ZArith Lia Bool Arith.
Import ListNotations.

Set Implicit Arguments.

(** ** Python strings *)

Module PyStr.

Definition str := list ascii.

(** A string literal of the source. *)
Definition lit (x : string) : str := list_ascii_of_string x.

Definition ord (c : ascii) : nat := nat_of_ascii c.
Definition chr (n : nat) : ascii := ascii_of_nat n.

Definition between (lo hi n : nat) : bool := (lo <=? n) && (n <=? hi).

(** [c.isupper()] for one character: A-Z, and the Latin-1 capitals
    U+00C0-U+00DE without the multiplication sign U+00D7. *)
Definition isupper (c : ascii) : bool :=
  let n := ord c in
  between 65 90 n || (between 192 222 n && negb (n =? 215)).

(** [c.islower()]: a-z, the ordinal indicators U+00AA and U+00BA, the micro
    sign U+00B5, and U+00DF-U+00FF without the division sign U+00F7. *)
Definition islower (c : ascii) : bool :=
  let n := ord c in
  between 97 122 n || (n =? 170) || (n =? 181) || (n =? 186)
  || (between 223 255 n && negb (n =? 247)).

(** [c.isdigit()]: 0-9 and the superscripts U+00B2, U+00B3, U+00B9. *)
Definition isdigit (c : ascii) : bool :=
  let n := ord c in
  between 48 57 n || (n =? 178) || (n =? 179) || (n =? 185).

(** [str.lower()]: on code points below 256 it maps character by character,
    the capitals 32 places up, everything else to itself. *)
Definition lower_char (c : ascii) : ascii :=
  if isupper c then chr (ord c + 32) else c.

Definition lower (s : str) : str := map lower_char s.

(** [s.startswith(p)], the step of the substring search. *)
Fixpoint startswith (p s : str) : bool :=
  match p, s with
  | [], _ => true
  | _ :: _, [] => false
  | a :: p', b :: s' => Ascii.eqb a b && startswith p' s'
  end.

(** [needle in hay] on strings: substring containment. *)
Fixpoint str_in (needle hay : str) : bool :=
  startswith needle hay
  || match hay with
     | [] => false
     | _ :: rest => str_in needle rest
     end.

(** [c in seq] for a one-character [c]. *)
Definition char_in (c : ascii) (seq : str) : bool :=
  existsb (Ascii.eqb c) seq.

(** [any(f(x) for x in xs)]. *)
Definition any {A} (f : A -> bool) (xs : list A) : bool := existsb f xs.

(** [sum] of a list of booleans. *)
Definition sum (bs : list bool) : nat :=
  fold_right (fun (b : bool) acc => (if b then 1 else 0) + acc) 0 bs.

(** The constants of the [string] module. *)
Definition ascii_uppercase : str := lit "ABCDEFGHIJKLMNOPQRSTUVWXYZ".
Definition ascii_lowercase : str := lit "abcdefghijklmnopqrstuvwxyz".
Definition digits : str := lit "0123456789".
Definition punctuation : str :=
  lit "!" ++ [chr 34] ++ lit "#$%&'()*+,-./:;<=>?@[\]^_`{|}~".

Definition newline : ascii := chr 10.

(** [re.search(r'(.)\1\1', s)] finds a match: at some position stands a
    character that [.] matches (any but the newline), followed twice by
    itself. *)
Fixpoint re_search_repeat (s : str) : bool :=
  match s with
  | [] => false
  | c :: rest =>
      match rest with
      | c1 :: c2 :: _ =>
          negb (Ascii.eqb c newline) && Ascii.eqb c1 c && Ascii.eqb c2 c
      | _ => false
      end
      || re_search_repeat rest
  end.

End PyStr.
Import PyStr.

(** ** Values of the request *)

(** The [strength] field is whatever the JSON body holds: a string, or a value
    of another type (null, a number, a boolean, a list, an object), which
    compares unequal to every string. *)
Inductive pyvalue : Type :=
| PyString (s : str)
| PyOther.

(** [v == 'literal']. *)
Definition py_eq (v : pyvalue) (s : str) : bool :=
  match v with
  | PyString t => if list_eq_dec ascii_dec t s then true else false
  | PyOther => false
  end.

(** ** Program state, exceptions and the monad *)

Record world : Type := mkWorld {
  COMMON_WORDS : list str;
  KEYBOARD_PATTERNS : list str;
  (** the system's entropy, one cell per call of [secrets.choice] *)
  entropy : nat -> nat;
  (** calls of [secrets.choice] made so far *)
  choices : nat;
  (** candidates drawn so far (evaluations of the [''.join(...)] expression);
      a counter for the statements only, nothing reads it *)
  draws : nat
}.

Inductive exn : Type :=
| IndexError (msg : str).

Definition str_of_exn (e : exn) : str :=
  match e with IndexError msg => msg end.

Inductive outcome (A : Type) : Type :=
| Ok (a : A)
| Raise (e : exn).
Arguments Raise {A} e.

Definition M (A : Type) : Type := world -> outcome A * world.

Definition ret {A} (a : A) : M A := fun w => (Ok a, w).

Definition bind {A B} (m : M A) (k : A -> M B) : M B :=
  fun w =>
    match m w with
    | (Ok a, w') => k a w'
    | (Raise e, w') => (Raise e, w')
    end.

(** [try: body except Exception as e: handler(e)] *)
Definition try_except {A} (body : M A) (handler : exn -> M A) : M A :=
  fun w =>
    match body w with
    | (Ok a, w') => (Ok a, w')
    | (Raise e, w') => handler e w'
    end.

(** Reading a module-level name. *)
Definition read_global {A} (f : world -> A) : M A := fun w => (Ok (f w), w).

Notation "x <- m ;; k" := (bind m (fun x => k))
  (at level 61, m at next level, right associativity).
Notation "m ;;; k" := (bind m (fun _ => k))
  (at level 61, right associativity).

(** The tables as the module initialises them (lines 25-32). *)
Definition COMMON_WORDS_init : list str :=
  map lit
    ["password"; "admin"; "welcome"; "123456"; "qwerty"; "user"; "guest";
     "login"; "test"; "root"; "secret"; "dragon"; "shadow"; "ninja";
     "football"; "monkey"; "master"; "sunshine"; "princess"; "love"]%string.

Definition KEYBOARD_PATTERNS_init : list str :=
  map lit ["qwerty"; "asdfgh"; "zxcvbn"; "12345"; "qazwsx"]%string.

(** The state of the process after the module is loaded, with a given entropy
    tape. *)
Definition boot (tape : nat -> nat) : world :=
  mkWorld COMMON_WORDS_init KEYBOARD_PATTERNS_init tape 0 0.

(** ** The strength checker (lines 34-75) *)

Definition check_password_strength (password : str) (level : pyvalue) : M bool :=
  words <- read_global COMMON_WORDS ;;
  if any (fun word => str_in word (lower password)) words then ret false else
  if re_search_repeat password then ret false else
  patterns <- read_global KEYBOARD_PATTERNS ;;
  if any (fun pattern => str_in pattern (lower password)) patterns then ret false else
  let has_upper := any isupper password in
  let has_lower := any islower password in
  let has_digit := any isdigit password in
  let has_symbol := any (fun c => char_in c punctuation) password in
  let char_type_count := sum [has_upper; has_lower; has_digit; has_symbol] in
  if py_eq level (lit "easy") then ret true else
  if py_eq level (lit "strong") then ret (3 <=? char_type_count) else
  if py_eq level (lit "max") then ret (char_type_count =? 4) else
  ret false.

(** ** Random draws *)

(** [secrets.choice(seq)]: [IndexError] on an empty sequence, else the element
    at an index below [len(seq)] taken from the next entropy cell.  The cell is
    reduced modulo the length, so every index below the length can come out
    and no other. *)
Definition secrets_choice (seq : str) : M ascii :=
  fun w =>
    match seq with
    | [] => (Raise (IndexError (lit "Cannot choose from an empty sequence")), w)
    | c0 :: _ =>
        let i := entropy w (choices w) mod List.length seq in
        (Ok (nth i seq c0),
         mkWorld (COMMON_WORDS w) (KEYBOARD_PATTERNS w) (entropy w)
                 (S (choices w)) (draws w))
    end.

(** The generator [secrets.choice(char_set) for i in range(n)], collected. *)
Fixpoint choice_loop (char_set : str) (n : nat) : M str :=
  match n with
  | O => ret []
  | S k =>
      c <- secrets_choice char_set ;;
      rest <- choice_loop char_set k ;;
      ret (c :: rest)
  end.

Definition count_draw : M unit :=
  fun w =>
    (Ok tt,
     mkWorld (COMMON_WORDS w) (KEYBOARD_PATTERNS w) (entropy w)
             (choices w) (S (draws w))).

(** [''.join(secrets.choice(char_set) for i in range(length))] (lines 108 and
    115); [range] of a non-positive integer is empty. *)
Definition join_choices (char_set : str) (length : Z) : M str :=
  count_draw ;;; choice_loop char_set (Z.to_nat length).

(** ** The request handler (lines 94-119) *)

(** The parsed request: [length], the four flags and [strength_level]. *)
Record request : Type := mkRequest {
  pw_length : Z;
  use_upper : bool;
  use_lower : bool;
  use_numbers : bool;
  use_symbols : bool;
  strength_level : pyvalue
}.

(** A response: the JSON object given to [jsonify], as the list of its
    key-value pairs in the order written, and the status code. *)
Record response : Type := mkResponse {
  body : list (str * str);
  status : nat
}.

Definition jsonify (kvs : list (str * str)) (code : nat) : response :=
  mkResponse kvs code.

(** Lines 95-99. *)
Definition build_char_set (req : request) : str :=
  let char_set := [] in
  let char_set := if use_upper req then char_set ++ ascii_uppercase else char_set in
  let char_set := if use_lower req then char_set ++ ascii_lowercase else char_set in
  let char_set := if use_numbers req then char_set ++ digits else char_set in
  let char_set := if use_symbols req then char_set ++ punctuation else char_set in
  char_set.

Definition warning_text : str :=
  lit "Could not meet all strength criteria. Consider more characters or a lower setting.".

(** The [for _ in range(n)] loop of lines 107-110: [Some] response when an
    attempt returns from inside the loop, [None] when the loop runs out. *)
Fixpoint attempt_loop (n : nat) (char_set : str) (length : Z)
    (strength_level : pyvalue) : M (option response) :=
  match n with
  | O => ret None
  | S k =>
      password <- join_choices char_set length ;;
      ok <- check_password_strength password strength_level ;;
      if ok then ret (Some (jsonify [(lit "password", password)] 200))
      else attempt_loop k char_set length strength_level
  end.

Definition generate_password (req : request) : M response :=
  try_except
    (let char_set := build_char_set req in
     match char_set with
     | [] =>
         ret (jsonify [(lit "error", lit "Please select at least one character type.")] 400)
     | _ :: _ =>
         r <- attempt_loop 100 char_set (pw_length req) (strength_level req) ;;
         match r with
         | Some resp => ret resp
         | None =>
             password <- join_choices char_set (pw_length req) ;;
             ret (jsonify [(lit "password", password); (lit "warning", warning_text)] 200)
         end
     end)
    (fun e => ret (jsonify [(lit "error", str_of_exn e)] 500)).

(** The keys of a response body: its shape. *)
Definition keys (r : response) : list str := map fst (body r).

(** [body["password"]]. *)
Fixpoint lookup (k : str) (kvs : list (str * str)) : option str :=
  match kvs with
  | [] => None
  | (k', v) :: rest => if list_eq_dec ascii_dec k k' then Some v else lookup k rest
  end.

Definition password_of (r : response) : option str := lookup (lit "password") (body r).

Definition success_shape (r : response) : Prop := keys r = [lit "password"].
Definition warning_shape (r : response) : Prop := keys r = [lit "password"; lit "warning"].
Definition error_shape (r : response) : Prop := keys r = [lit "error"].

(** ** The specification's vocabulary *)

Module Spec.

(** [s] occurs in [t] as a substring. *)
Definition Substring (s t : str) : Prop :=
  exists pre post, t = pre ++ s ++ post.

(** [s] occurs in [t] as a substring, letter case ignored: some substring of
    [t] lowercases to [s] (the table entries are lowercase). *)
Definition SubstringNoCase (s t : str) : Prop :=
  exists pre mid post, t = pre ++ mid ++ post /\ lower mid = s.

(** Some character repeats three or more times consecutively. *)
Definition Repeats3 (s : str) : Prop :=
  exists pre c post, s = pre ++ c :: c :: c :: post.

(** The four predicates over the candidate. *)
Definition HasUpper (s : str) : Prop := exists c, In c s /\ isupper c = true.
Definition HasLower (s : str) : Prop := exists c, In c s /\ islower c = true.
Definition HasDigit (s : str) : Prop := exists c, In c s /\ isdigit c = true.
Definition HasSymbol (s : str) : Prop := exists c, In c s /\ In c punctuation.

(** [diversity]: how many of the four predicates hold. *)
Definition Diversity (s : str) (d : nat) : Prop :=
  exists u l g y : bool,
    (u = true <-> HasUpper s) /\ (l = true <-> HasLower s) /\
    (g = true <-> HasDigit s) /\ (y = true <-> HasSymbol s) /\
    d = Nat.b2n u + Nat.b2n l + Nat.b2n g + Nat.b2n y.

(** The three universal rules, against the fixed tables. *)
Definition Universal (s : str) : Prop :=
  (forall word, In word COMMON_WORDS_init -> ~ Substring word (lower s)) /\
  ~ Repeats3 s /\
  (forall pattern, In pattern KEYBOARD_PATTERNS_init -> ~ Substring pattern (lower s)).

(** The level-specific condition; a level that is none of the three names
    satisfies no disjunct. *)
Definition LevelCondition (s : str) (level : pyvalue) : Prop :=
  level = PyString (lit "easy") \/
  (level = PyString (lit "strong") /\ exists d, Diversity s d /\ 3 <= d) \/
  (level = PyString (lit "max") /\ Diversity s 4).

Definition Accepts (s : str) (level : pyvalue) : Prop :=
  Universal s /\ LevelCondition s level.

End Spec.

(** ** Closed forms of the runs *)

(** The checker's answer in a state. *)
Definition verdict (w : world) (password : str) (level : pyvalue) : bool :=
  match fst (check_password_strength password level w) with
  | Ok b => b
  | Raise _ => false
  end.

(** The value of [char_type_count] (line 60) for a password. *)
Definition char_type_count (password : str) : nat :=
  sum [any isupper password; any islower password; any isdigit password;
       any (fun c => char_in c punctuation) password].

(** The character [secrets.choice] returns on entropy cell [r]. *)
Definition pick (char_set : str) (r : nat) : ascii :=
  match char_set with
  | [] => zero
  | c0 :: _ => nth (r mod List.length char_set) char_set c0
  end.

(** The [n] characters drawn from the tape from cell [pos] on. *)
Fixpoint candidate (char_set : str) (tape : nat -> nat) (pos n : nat) : str :=
  match n with
  | O => []
  | S k => pick char_set (tape pos) :: candidate char_set tape (S pos) k
  end.

(** The state after [k] more calls of [secrets.choice] and [d] more draws. *)
Definition advance (k d : nat) (w : world) : world :=
  mkWorld (COMMON_WORDS w) (KEYBOARD_PATTERNS w) (entropy w)
          (choices w + k) (draws w + d).

(** The candidate of attempt [k] (counted from 0) of a call that starts in
    [w] and draws [n] characters per candidate. *)
Definition nth_candidate (w : world) (char_set : str) (n k : nat) : str :=
  candidate char_set (entropy w) (choices w + k * n) n.

(** The first accepted attempt among attempts [k], ..., [k + m - 1]. *)
Fixpoint search (w : world) (char_set : str) (n : nat) (level : pyvalue)
    (m k : nat) : option nat :=
  match m with
  | O => None
  | S m' =>
      if verdict w (nth_candidate w char_set n k) level then Some k
      else search w char_set n level m' (S k)
  end.

(** The tables are the ones the module initialised. *)
Definition loaded (w : world) : Prop :=
  COMMON_WORDS w = COMMON_WORDS_init /\
  KEYBOARD_PATTERNS w = KEYBOARD_PATTERNS_init.

(** A policy that selects at least one character class. *)
Definition some_class (req : request) : Prop :=
  use_upper req = true \/ use_lower req = true \/
  use_numbers req = true \/ use_symbols req = true.

(** The level is none of the three names. *)
Definition unknown_level (level : pyvalue) : Prop :=
  level <> PyString (lit "easy") /\ level <> PyString (lit "strong") /\
  level <> PyString (lit "max").

(** The character classes as ranges of code points. *)
Definition code_range (first count : nat) : str := map chr (seq first count).

(** A run of three of one character that the regular expression's dot
    matches. *)
Definition Repeats3Dot (s : str) : Prop :=
  exists pre c post, c <> newline /\ s = pre ++ c :: c :: c :: post.

(** The universal rules as the code applies them. *)
Definition UniversalDot (s : str) : Prop :=
  (forall word, In word COMMON_WORDS_init -> ~ Spec.Substring word (lower s)) /\
  ~ Repeats3Dot s /\
  (forall pattern, In pattern KEYBOARD_PATTERNS_init -> ~ Spec.Substring pattern (lower s)).

(** Every character of the model, in the order of the code points. *)
Definition all_chars : str := code_range 0 256.

(** ** Vocabulary of the further properties *)

(** How many character classes the policy enables. *)
Definition enabled_classes (req : request) : nat :=
  Nat.b2n (use_upper req) + Nat.b2n (use_lower req)
  + Nat.b2n (use_numbers req) + Nat.b2n (use_symbols req).

(** How many of the four classes one character belongs to. *)
Definition class_count (c : ascii) : nat :=
  Nat.b2n (isupper c) + Nat.b2n (islower c) + Nat.b2n (isdigit c)
  + Nat.b2n (char_in c punctuation).

(** The state [w] with another entropy tape. *)
Definition with_entropy (tape : nat -> nat) (w : world) : world :=
  mkWorld (COMMON_WORDS w) (KEYBOARD_PATTERNS w) tape (choices w) (draws w).

(** The first position of [c] in [seq] (the length of [seq] when absent). *)
Fixpoint index_of (c : ascii) (seq : str) : nat :=
  match seq with
  | [] => 0
  | x :: rest => if Ascii.eqb x c then 0 else S (index_of c rest)
  end.

(** A tape whose cells from [pos] on select the characters of [target] in
    [char_set], one after the other. *)
Definition tape_for (char_set : str) (pos : nat) (target : str) : nat -> nat :=
  fun i => index_of (nth (i - pos) target zero) char_set.

(** The state [w] with other tables. *)
Definition with_tables (words patterns : list str) (w : world) : world :=
  mkWorld words patterns (entropy w) (choices w) (draws w).

(** A table without one entry. *)
Definition without (entry : str) (table : list str) : list str :=
  filter (fun e => if list_eq_dec ascii_dec e entry then false else true) table.

(** * Properties *)

Unset Implicit Arguments.

(** ** Strings *)

Lemma startswith_iff (p s : str) :
  startswith p s = true <-> exists post, s = p ++ post.
Proof.
  revert s; induction p as [|a p IH]; intros s; simpl.
  - split; [intros _; now exists s | reflexivity].
  - destruct s as [|b s].
    + split; [discriminate | intros [post H]; discriminate].
    + rewrite andb_true_iff, Ascii.eqb_eq, IH. split.
      * intros [-> [post ->]]. now exists post.
      * intros [post H]. injection H as -> ->. split; [reflexivity | now exists post].
Qed.

Lemma str_in_iff (needle hay : str) :
  str_in needle hay = true <-> Spec.Substring needle hay.
Proof.
  unfold Spec.Substring.
  induction hay as [|b hay IH]; simpl; rewrite orb_true_iff, startswith_iff.
  - split.
    + intros [[post H] | H]; [|discriminate]. now exists [], post.
    + intros [pre [post H]]. left.
      destruct pre; [now exists post | discriminate].
  - rewrite IH. split.
    + intros [[post H] | [pre [post H]]].
      * now exists [], post.
      * exists (b :: pre), post. simpl. now rewrite H.
    + intros [pre [post H]]. destruct pre as [|c pre]; simpl in H.
      * left. now exists post.
      * right. injection H as _ ->. now exists pre, post.
Qed.

Lemma char_in_iff (c : ascii) (seq : str) : char_in c seq = true <-> In c seq.
Proof.
  unfold char_in. rewrite existsb_exists. split.
  - intros [x [Hx E]]. apply Ascii.eqb_eq in E. now subst.
  - intros H. exists c. split; [assumption | apply Ascii.eqb_refl].
Qed.

Lemma lower_app (s t : str) : lower (s ++ t) = lower s ++ lower t.
Proof. apply map_app. Qed.

Lemma lower_eq_app (s a b : str) :
  lower s = a ++ b -> exists s1 s2, s = s1 ++ s2 /\ lower s1 = a /\ lower s2 = b.
Proof.
  revert s; induction a as [|x a IH]; intros s H; simpl in H.
  - now exists [], s.
  - destruct s as [|c s]; [discriminate|]. simpl in H. injection H as Hc Hs.
    destruct (IH s Hs) as [s1 [s2 [-> [H1 H2]]]].
    exists (c :: s1), s2. simpl. now rewrite Hc, H1.
Qed.

(** Containment in the lowercased string is containment with case ignored. *)
Lemma substring_lower_iff (word s : str) :
  Spec.Substring word (lower s) <-> Spec.SubstringNoCase word s.
Proof.
  split.
  - intros [pre [post H]].
    destruct (lower_eq_app s pre (word ++ post) H) as [s1 [s2 [-> [_ H2]]]].
    destruct (lower_eq_app s2 word post H2) as [m [s3 [-> [Hm _]]]].
    now exists s1, m, s3.
  - intros [pre [mid [post [-> <-]]]].
    exists (lower pre), (lower post). now rewrite !lower_app.
Qed.

(** What the regular expression finds: a run of three of one character that is
    not the newline. *)
Lemma re_search_repeat_iff (s : str) :
  re_search_repeat s = true <->
  exists pre c post, c <> newline /\ s = pre ++ c :: c :: c :: post.
Proof.
  induction s as [|a s IH].
  - simpl. split; [discriminate|]. intros [pre [c [post [_ H]]]].
    destruct pre; discriminate.
  - cbn [re_search_repeat]. rewrite orb_true_iff, IH. split.
    + intros [H | [pre [c [post [Hc H]]]]].
      * destruct s as [|c1 [|c2 post]]; try discriminate.
        rewrite !andb_true_iff, negb_true_iff, !Ascii.eqb_eq in H.
        destruct H as [[Hn ->] ->]. exists [], a, post. split; [|reflexivity].
        intros E. apply Ascii.eqb_neq in Hn. contradiction.
      * exists (a :: pre), c, post. split; [assumption|]. simpl. now rewrite H.
    + intros [pre [c [post [Hc H]]]]. destruct pre as [|b pre]; simpl in H.
      * left. injection H as -> ->.
        rewrite !Ascii.eqb_refl. apply Ascii.eqb_neq in Hc. now rewrite Hc.
      * right. injection H as _ ->. now exists pre, c, post.
Qed.

(** ** The character classes agree with Python's tables *)

Example isupper_table :
  map ord (filter isupper all_chars) = seq 65 26 ++ seq 192 23 ++ seq 216 7.
Proof. vm_compute. reflexivity. Qed.

Example islower_table :
  map ord (filter islower all_chars) =
  seq 97 26 ++ [170; 181; 186] ++ seq 223 24 ++ seq 248 8.
Proof. vm_compute. reflexivity. Qed.

Example isdigit_table :
  map ord (filter isdigit all_chars) = seq 48 10 ++ [178; 179; 185].
Proof. vm_compute. reflexivity. Qed.

Example lower_table :
  map ord (filter (fun c => negb (Ascii.eqb (lower_char c) c)) all_chars)
  = seq 65 26 ++ seq 192 23 ++ seq 216 7 /\
  forall c, ord (lower_char c) = if isupper c then ord c + 32 else ord c.
Proof.
  split; [vm_compute; reflexivity|].
  intros c. destruct c as [[] [] [] [] [] [] [] []]; vm_compute; reflexivity.
Qed.

Example punctuation_table :
  map ord punctuation = seq 33 15 ++ seq 58 7 ++ seq 91 6 ++ seq 123 4.
Proof. vm_compute. reflexivity. Qed.

(** ** The checker *)

Lemma py_eq_iff (v : pyvalue) (s : str) : py_eq v s = true <-> v = PyString s.
Proof.
  destruct v as [t|]; simpl.
  - destruct (list_eq_dec ascii_dec t s) as [->|N]; split; try reflexivity; try discriminate.
    intros E. injection E as E. contradiction.
  - split; discriminate.
Qed.

(** The checker returns, raises nothing and leaves the state as it was. *)
Lemma check_password_strength_run (password : str) (level : pyvalue) (w : world) :
  check_password_strength password level w = (Ok (verdict w password level), w).
Proof.
  unfold verdict, check_password_strength, bind, read_global, ret. cbn.
  repeat match goal with
         | |- context [if ?b then _ else _] => destruct b; cbn
         end; reflexivity.
Qed.

Lemma verdict_eq (w : world) (password : str) (level : pyvalue) :
  verdict w password level =
  negb (any (fun word => str_in word (lower password)) (COMMON_WORDS w))
  && negb (re_search_repeat password)
  && negb (any (fun pattern => str_in pattern (lower password)) (KEYBOARD_PATTERNS w))
  && (if py_eq level (lit "easy") then true
      else if py_eq level (lit "strong") then 3 <=? char_type_count password
      else if py_eq level (lit "max") then char_type_count password =? 4
      else false).
Proof.
  unfold verdict, check_password_strength, bind, read_global, ret, char_type_count. cbn.
  repeat match goal with
         | |- context [if ?b then _ else _] => destruct b; cbn
         end; reflexivity.
Qed.

(** The answer depends on the state through the two tables only. *)
Lemma verdict_tables (w w' : world) (password : str) (level : pyvalue) :
  COMMON_WORDS w = COMMON_WORDS w' ->
  KEYBOARD_PATTERNS w = KEYBOARD_PATTERNS w' ->
  verdict w password level = verdict w' password level.
Proof. intros H1 H2. rewrite !verdict_eq, H1, H2. reflexivity. Qed.

Lemma any_str_in_false (table : list str) (s : str) :
  any (fun entry => str_in entry s) table = false <->
  forall entry, In entry table -> ~ Spec.Substring entry s.
Proof.
  unfold any. split.
  - intros H entry Hin Hsub. apply str_in_iff in Hsub.
    assert (E : existsb (fun entry => str_in entry s) table = true)
      by (apply existsb_exists; now exists entry).
    congruence.
  - intros H. apply not_true_is_false. intros E.
    apply existsb_exists in E. destruct E as [entry [Hin Hs]].
    apply str_in_iff in Hs. exact (H entry Hin Hs).
Qed.

Lemma any_class_iff (f : ascii -> bool) (s : str) :
  any f s = true <-> exists c, In c s /\ f c = true.
Proof. apply existsb_exists. Qed.

Lemma any_symbol_iff (s : str) :
  any (fun c => char_in c punctuation) s = true <-> Spec.HasSymbol s.
Proof.
  unfold Spec.HasSymbol. rewrite any_class_iff.
  split; intros [c [H1 H2]]; exists c; split; try assumption; now apply char_in_iff.
Qed.

Lemma bool_of_iff (a b : bool) (P : Prop) :
  (a = true <-> P) -> (b = true <-> P) -> a = b.
Proof. intros Ha Hb. destruct a, b; intuition congruence. Qed.

(** The specification's diversity is the code's [char_type_count]. *)
Lemma diversity_iff (s : str) (d : nat) :
  Spec.Diversity s d <-> d = char_type_count s.
Proof.
  unfold Spec.Diversity, char_type_count. split.
  - intros [u [l [g [y [Hu [Hl [Hg [Hy ->]]]]]]]].
    rewrite <- (bool_of_iff _ _ _ Hu (any_class_iff isupper s)).
    rewrite <- (bool_of_iff _ _ _ Hl (any_class_iff islower s)).
    rewrite <- (bool_of_iff _ _ _ Hg (any_class_iff isdigit s)).
    rewrite <- (bool_of_iff _ _ _ Hy (any_symbol_iff s)).
    destruct u, l, g, y; reflexivity.
  - intros ->.
    exists (any isupper s), (any islower s), (any isdigit s),
      (any (fun c => char_in c punctuation) s).
    repeat split; try apply any_class_iff; try apply any_symbol_iff.
    destruct (any isupper s), (any islower s), (any isdigit s),
      (any (fun c => char_in c punctuation) s); reflexivity.
Qed.

Lemma level_test_iff (s : str) (level : pyvalue) :
  (if py_eq level (lit "easy") then true
   else if py_eq level (lit "strong") then 3 <=? char_type_count s
   else if py_eq level (lit "max") then char_type_count s =? 4
   else false) = true
  <-> Spec.LevelCondition s level.
Proof.
  unfold Spec.LevelCondition.
  destruct (py_eq level (lit "easy")) eqn:E1.
  { apply py_eq_iff in E1. tauto. }
  destruct (py_eq level (lit "strong")) eqn:E2.
  { apply py_eq_iff in E2. subst level. rewrite Nat.leb_le. split.
    - intros H. right; left. split; [reflexivity|].
      exists (char_type_count s). split; [now apply diversity_iff | assumption].
    - intros [H | [[_ [d [Hd H]]] | [H _]]]; try discriminate.
      apply diversity_iff in Hd. now subst d. }
  destruct (py_eq level (lit "max")) eqn:E3.
  { apply py_eq_iff in E3. subst level. rewrite Nat.eqb_eq. split.
    - intros H. right; right. split; [reflexivity|]. now apply diversity_iff.
    - intros [H | [[H _] | [_ H]]]; try discriminate.
      apply diversity_iff in H. now symmetry. }
  split; [discriminate|].
  intros [H | [[H _] | [H _]]]; apply py_eq_iff in H; congruence.
Qed.

(** The checker accepts exactly when the universal rules, with the repetition
    rule as the regular expression reads it, and the level condition hold. *)
Lemma verdict_true_iff (w : world) (password : str) (level : pyvalue) :
  loaded w ->
  (verdict w password level = true <->
   UniversalDot password /\ Spec.LevelCondition password level).
Proof.
  intros [Hc Hk]. rewrite verdict_eq, Hc, Hk.
  rewrite !andb_true_iff, !negb_true_iff, level_test_iff, !any_str_in_false.
  unfold UniversalDot, Repeats3Dot. rewrite <- re_search_repeat_iff.
  rewrite not_true_iff_false. tauto.
Qed.

(** ** The random draws *)

Lemma advance_eq (a a' b b' : nat) (w : world) :
  a = a' -> b = b' -> advance a b w = advance a' b' w.
Proof. now intros -> ->. Qed.

Lemma advance_zero (w : world) : advance 0 0 w = w.
Proof. destruct w. unfold advance. simpl. now rewrite !Nat.add_0_r. Qed.

Lemma advance_advance (a b c d : nat) (w : world) :
  advance a b (advance c d w) = advance (c + a) (d + b) w.
Proof. unfold advance. simpl. now rewrite !Nat.add_assoc. Qed.

Lemma secrets_choice_run (char_set : str) (w : world) :
  char_set <> [] ->
  secrets_choice char_set w
  = (Ok (pick char_set (entropy w (choices w))), advance 1 0 w).
Proof.
  intros H. destruct char_set as [|c0 cs]; [contradiction|].
  unfold secrets_choice, pick, advance.
  now rewrite Nat.add_1_r, Nat.add_0_r.
Qed.

Lemma choice_loop_run (char_set : str) (n : nat) (w : world) :
  char_set <> [] ->
  choice_loop char_set n w
  = (Ok (candidate char_set (entropy w) (choices w) n), advance n 0 w).
Proof.
  intros H. revert w. induction n as [|n IH]; intros w.
  - simpl. unfold ret. now rewrite advance_zero.
  - cbn [choice_loop candidate]. unfold bind.
    rewrite (secrets_choice_run _ w H), IH, advance_advance.
    unfold ret. cbn [advance entropy choices].
    rewrite Nat.add_1_r. reflexivity.
Qed.

Lemma join_choices_run (char_set : str) (length : Z) (w : world) :
  char_set <> [] ->
  join_choices char_set length w
  = (Ok (candidate char_set (entropy w) (choices w) (Z.to_nat length)),
     advance (Z.to_nat length) 1 w).
Proof.
  intros H. unfold join_choices, bind, count_draw.
  rewrite (choice_loop_run _ (Z.to_nat length) _ H).
  cbn [entropy choices]. f_equal.
  unfold advance. cbn. now rewrite Nat.add_0_r, Nat.add_1_r.
Qed.

Lemma candidate_length (char_set : str) (tape : nat -> nat) (pos n : nat) :
  List.length (candidate char_set tape pos n) = n.
Proof. revert pos; induction n; intros pos; simpl; [reflexivity | now rewrite IHn]. Qed.

Lemma pick_in (char_set : str) (r : nat) : char_set <> [] -> In (pick char_set r) char_set.
Proof.
  intros H. destruct char_set as [|c0 cs]; [contradiction|].
  unfold pick. apply nth_In. apply Nat.mod_upper_bound. discriminate.
Qed.

Lemma candidate_in (char_set : str) (tape : nat -> nat) (pos n : nat) (c : ascii) :
  char_set <> [] -> In c (candidate char_set tape pos n) -> In c char_set.
Proof.
  intros H. revert pos; induction n as [|n IH]; intros pos; simpl; [tauto|].
  intros [<- | Hin]; [now apply pick_in | eauto].
Qed.

(** Every index of the alphabet can come out of a draw. *)
Lemma pick_index (char_set : str) (i : nat) (d : ascii) :
  i < List.length char_set -> pick char_set i = nth i char_set d.
Proof.
  intros H. destruct char_set as [|c0 cs]; [simpl in H; lia|].
  unfold pick. rewrite Nat.mod_small by assumption. apply nth_indep. assumption.
Qed.

(** A candidate reads the tape on its own cells only. *)
Lemma candidate_ext (char_set : str) (tape tape' : nat -> nat) (pos n : nat) :
  (forall i, pos <= i < pos + n -> tape i = tape' i) ->
  candidate char_set tape pos n = candidate char_set tape' pos n.
Proof.
  revert pos; induction n as [|n IH]; intros pos H; simpl; [reflexivity|].
  rewrite (H pos) by lia. f_equal. apply IH. intros i Hi. apply H. lia.
Qed.

(** ** The attempt loop and the handler *)

Section Attempts.

Variable w : world.
Variable char_set : str.
Variable length : Z.
Variable level : pyvalue.
Hypothesis nonempty : char_set <> [].

Let n := Z.to_nat length.

Lemma attempt_loop_run (m k : nat) :
  attempt_loop m char_set length level (advance (k * n) k w)
  = match search w char_set n level m k with
    | Some j =>
        (Ok (Some (jsonify [(lit "password", nth_candidate w char_set n j)] 200)),
         advance (S j * n) (S j) w)
    | None => (Ok None, advance ((k + m) * n) (k + m) w)
    end.
Proof.
  revert k. induction m as [|m IH]; intros k.
  - simpl. unfold ret. now rewrite Nat.add_0_r.
  - cbn [attempt_loop search]. unfold bind at 1.
    rewrite (join_choices_run _ length _ nonempty). fold n.
    cbn [advance entropy choices]. fold (nth_candidate w char_set n k).
    unfold bind at 1. rewrite check_password_strength_run.
    rewrite (verdict_tables _ w) by reflexivity.
    rewrite advance_advance.
    rewrite (advance_eq _ (S k * n) _ (S k) w) by lia.
    destruct (verdict w (nth_candidate w char_set n k) level).
    + reflexivity.
    + rewrite IH. replace (S k + m) with (k + S m) by lia. reflexivity.
Qed.

Lemma search_some (m k j : nat) :
  search w char_set n level m k = Some j ->
  k <= j < k + m /\
  verdict w (nth_candidate w char_set n j) level = true /\
  forall i, k <= i < j -> verdict w (nth_candidate w char_set n i) level = false.
Proof.
  revert k. induction m as [|m IH]; intros k; simpl; [discriminate|].
  destruct (verdict w (nth_candidate w char_set n k) level) eqn:E.
  - intros H. injection H as <-. split; [lia | split; [assumption|]]. intros i Hi; lia.
  - intros H. destruct (IH _ H) as [Hr [Hj Hi]]. split; [lia | split; [assumption|]].
    intros i Hik. destruct (Nat.eq_dec i k) as [->|Hne]; [assumption|]. apply Hi. lia.
Qed.

Lemma search_none (m k : nat) :
  search w char_set n level m k = None <->
  forall i, k <= i < k + m -> verdict w (nth_candidate w char_set n i) level = false.
Proof.
  revert k. induction m as [|m IH]; intros k; simpl.
  - split; [intros _ i Hi; lia | reflexivity].
  - destruct (verdict w (nth_candidate w char_set n k) level) eqn:E.
    + split; [discriminate|]. intros H. rewrite (H k) in E by lia. discriminate.
    + rewrite IH. split.
      * intros H i Hi. destruct (Nat.eq_dec i k) as [->|Hne]; [assumption|]. apply H. lia.
      * intros H i Hi. apply H. lia.
Qed.

End Attempts.

Lemma generate_password_run (req : request) (w : world) :
  build_char_set req <> [] ->
  let n := Z.to_nat (pw_length req) in
  generate_password req w
  = match search w (build_char_set req) n (strength_level req) 100 0 with
    | Some j =>
        (Ok (jsonify [(lit "password", nth_candidate w (build_char_set req) n j)] 200),
         advance (S j * n) (S j) w)
    | None =>
        (Ok (jsonify [(lit "password", nth_candidate w (build_char_set req) n 100);
                      (lit "warning", warning_text)] 200),
         advance (101 * n) 101 w)
    end.
Proof.
  intros H n. unfold generate_password, try_except.
  destruct (build_char_set req) as [|c0 cs] eqn:E; [contradiction|].
  unfold bind at 1.
  pose proof (attempt_loop_run w _ (pw_length req) (strength_level req) H 100 0) as R.
  rewrite Nat.mul_0_l, advance_zero in R. rewrite R. fold n.
  destruct (search w (c0 :: cs) n (strength_level req) 100 0) as [j|].
  - reflexivity.
  - unfold ret, bind. rewrite (join_choices_run _ (pw_length req) _ H). fold n.
    cbn [advance entropy choices]. unfold nth_candidate.
    rewrite advance_advance.
    replace (choices w + (0 + 100) * n) with (choices w + 100 * n) by lia.
    rewrite (advance_eq _ (101 * n) _ 101 w) by lia.
    reflexivity.
Qed.

(** ** The alphabet *)

Lemma build_char_set_nonempty (req : request) :
  some_class req <-> build_char_set req <> [].
Proof.
  unfold some_class, build_char_set.
  destruct (use_upper req), (use_lower req), (use_numbers req), (use_symbols req);
    cbn; split; intros H; try discriminate; try tauto;
    try (now destruct H as [H | [H | [H | H]]]).
Qed.

(** No class holds the newline, so the dot of the regular expression matches
    every character of a candidate. *)
Lemma build_char_set_no_newline (req : request) : ~ In newline (build_char_set req).
Proof.
  intros H. apply char_in_iff in H. revert H. unfold build_char_set.
  destruct (use_upper req), (use_lower req), (use_numbers req), (use_symbols req);
    vm_compute; discriminate.
Qed.

Lemma repeats3_dot_iff (s : str) :
  ~ In newline s -> (Repeats3Dot s <-> Spec.Repeats3 s).
Proof.
  intros Hn. split.
  - intros [pre [c [post [_ H]]]]. now exists pre, c, post.
  - intros [pre [c [post H]]]. exists pre, c, post. split; [|assumption].
    intros ->. apply Hn. rewrite H. apply in_or_app. right. now left.
Qed.

Lemma universal_dot_iff (s : str) :
  ~ In newline s -> (UniversalDot s <-> Spec.Universal s).
Proof.
  intros Hn. unfold UniversalDot, Spec.Universal.
  rewrite (repeats3_dot_iff s Hn). reflexivity.
Qed.

Lemma nth_candidate_no_newline (req : request) (w : world) (n k : nat) :
  ~ In newline (nth_candidate w (build_char_set req) n k).
Proof.
  intros H. destruct (build_char_set req) as [|c0 cs] eqn:E.
  - unfold nth_candidate in H. revert H. generalize (choices w + k * n).
    induction n as [|n IH]; intros pos; simpl; [tauto|].
    intros [H | H]; [discriminate | eauto].
  - apply (build_char_set_no_newline req). rewrite E.
    apply (candidate_in _ (entropy w) (choices w + k * n) n); [discriminate | exact H].
Qed.

Lemma lookup_head (k v : str) (rest : list (str * str)) :
  lookup k ((k, v) :: rest) = Some v.
Proof. simpl. destruct (list_eq_dec ascii_dec k k); [reflexivity | contradiction]. Qed.

(** The handler leaves the tables as they are. *)
Lemma generate_password_tables (req : request) (w : world) :
  COMMON_WORDS (snd (generate_password req w)) = COMMON_WORDS w /\
  KEYBOARD_PATTERNS (snd (generate_password req w)) = KEYBOARD_PATTERNS w.
Proof.
  destruct (build_char_set req) as [|c0 cs] eqn:E.
  - unfold generate_password, try_except. rewrite E. now split.
  - assert (H : build_char_set req <> []) by (rewrite E; discriminate).
    rewrite (generate_password_run req w H).
    destruct (search w (build_char_set req) _ (strength_level req) 100 0); now split.
Qed.


(** ** The claims *)

(** Outside the alphabet: the regular expression [(.)\1\1] does not match a
    run of newlines, so a direct call of the checker on three newlines accepts
    them at level 'easy' although a character stands three times in a row.
    The handler never submits such a string ([nth_candidate_no_newline]). *)
Theorem check_password_strength_newline_run (tape : nat -> nat) :
  let candidate := [newline; newline; newline] in
  let easy := PyString (lit "easy") in
  check_password_strength candidate easy (boot tape) = (Ok true, boot tape) /\
  Spec.Repeats3 candidate /\
  ~ Spec.Accepts candidate easy.
Proof.
  cbv zeta. split; [|split].
  - rewrite check_password_strength_run, verdict_eq. vm_compute. reflexivity.
  - now exists [], newline, [].
  - intros [[_ [H _]] _]. apply H. now exists [], newline, [].
Qed.



(** C4.  The alphabet is the concatenation, in the order upper (A-Z), lower
    (a-z), digit (0-9), symbol (the ASCII punctuation), of the classes whose
    flag is true; it is empty exactly when the four flags are false; and with
    the four flags false the handler answers the empty-alphabet error with
    status 400 in an unchanged state: no entropy read, no candidate drawn. *)
Theorem build_char_set_classes (req : request) :
  build_char_set req
  = (if use_upper req then code_range 65 26 else [])
    ++ (if use_lower req then code_range 97 26 else [])
    ++ (if use_numbers req then code_range 48 10 else [])
    ++ (if use_symbols req
        then code_range 33 15 ++ code_range 58 7 ++ code_range 91 6 ++ code_range 123 4
        else []) /\
  (build_char_set req = [] <->
   (use_upper req = false /\ use_lower req = false /\
    use_numbers req = false /\ use_symbols req = false)) /\
  forall (length : Z) (level : pyvalue) (w : world),
    let r := generate_password (mkRequest length false false false false level) w in
    r = (Ok (jsonify [(lit "error", lit "Please select at least one character type.")] 400), w)
    /\ error_shape (jsonify [(lit "error", lit "Please select at least one character type.")] 400)
    /\ choices (snd r) = choices w /\ draws (snd r) = draws w.
Proof.
  split; [|split].
  - unfold build_char_set.
    destruct (use_upper req), (use_lower req), (use_numbers req), (use_symbols req);
      vm_compute; reflexivity.
  - unfold build_char_set.
    destruct (use_upper req), (use_lower req), (use_numbers req), (use_symbols req);
      cbn; split; intros H; try discriminate; try tauto;
      try (destruct H as [H1 [H2 [H3 H4]]]; discriminate).
  - intros length level w. cbv zeta. repeat split.
Qed.

(** C9.  An invocation of the checker returns a boolean, raises nothing and
    leaves the whole program state, the two tables included, as it was; a
    second invocation on the same inputs returns the same boolean; the boolean
    does not depend on the rest of the state (entropy read, counters), and an
    invocation after a run of the handler returns it again. *)
Theorem check_password_strength_pure (password : str) (level : pyvalue) (w : world) :
  exists b : bool,
    check_password_strength password level w = (Ok b, w) /\
    (b1 <- check_password_strength password level ;;
     b2 <- check_password_strength password level ;;
     ret (b1, b2)) w = (Ok (b, b), w) /\
    (forall tape k d,
       let w' := mkWorld (COMMON_WORDS w) (KEYBOARD_PATTERNS w) tape k d in
       check_password_strength password level w' = (Ok b, w')) /\
    (forall req,
       let w' := snd (generate_password req w) in
       check_password_strength password level w' = (Ok b, w')).
Proof.
  exists (verdict w password level). repeat split.
  - apply check_password_strength_run.
  - unfold bind. now rewrite !check_password_strength_run.
  - intros tape k d. cbv zeta. rewrite check_password_strength_run.
    now rewrite (verdict_tables _ w).
  - intros req. cbv zeta. rewrite check_password_strength_run.
    destruct (generate_password_tables req w) as [H1 H2].
    now rewrite (verdict_tables _ w).
Qed.

(** The two ways a call with a non-empty alphabet ends. *)
Lemma generate_password_cases (req : request) (w : world) :
  some_class req ->
  let cs := build_char_set req in
  let n := Z.to_nat (pw_length req) in
  let level := strength_level req in
  (exists j, j < 100 /\
     verdict w (nth_candidate w cs n j) level = true /\
     (forall i, i < j -> verdict w (nth_candidate w cs n i) level = false) /\
     generate_password req w
     = (Ok (jsonify [(lit "password", nth_candidate w cs n j)] 200),
        advance (S j * n) (S j) w))
  \/
  ((forall i, i < 100 -> verdict w (nth_candidate w cs n i) level = false) /\
   generate_password req w
   = (Ok (jsonify [(lit "password", nth_candidate w cs n 100);
                   (lit "warning", warning_text)] 200),
      advance (101 * n) 101 w)).
Proof.
  intros Hc cs n level. apply build_char_set_nonempty in Hc.
  rewrite (generate_password_run req w Hc). fold cs n level.
  destruct (search w cs n level 100 0) as [j|] eqn:E.
  - left. exists j. destruct (search_some w cs (pw_length req) level 100 0 j E) as [Hj [Hv Hi]].
    repeat split; try assumption; try lia. intros i Hlt. apply Hi. lia.
  - right. split; [|reflexivity]. intros i Hi.
    apply (proj1 (search_none w cs (pw_length req) level 100 0) E). lia.
Qed.

Lemma level_names_distinct :
  PyString (lit "easy") <> PyString (lit "strong") /\
  PyString (lit "easy") <> PyString (lit "max") /\
  PyString (lit "strong") <> PyString (lit "max").
Proof. repeat split; intros H; vm_compute in H; discriminate. Qed.

(** C2.  A call with a non-empty alphabet returns a response with status 200
    after [k] draws of a candidate, [k] at most 101: either the body is
    \{password\}, [k] is at most 100 and attempt [k] was accepted, or the body
    is \{password, warning\}, [k] is 101 and the 100 attempts were all
    rejected.  Each draw reads one entropy cell per character. *)
Theorem generate_password_terminates (req : request) (w : world) :
  some_class req ->
  let cs := build_char_set req in
  let n := Z.to_nat (pw_length req) in
  let level := strength_level req in
  exists (resp : response) (w' : world) (k : nat),
    generate_password req w = (Ok resp, w') /\
    status resp = 200 /\
    draws w' = draws w + k /\ choices w' = choices w + k * n /\ k <= 101 /\
    ((success_shape resp /\ 1 <= k <= 100 /\
      verdict w (nth_candidate w cs n (k - 1)) level = true)
     \/
     (warning_shape resp /\ k = 101 /\
      forall i, i < 100 -> verdict w (nth_candidate w cs n i) level = false)).
Proof.
  intros Hc cs n level.
  destruct (generate_password_cases req w Hc) as [[j [Hj [Hv [_ E]]]] | [Hall E]];
    fold cs n level in E |- *.
  - eexists _, _, (S j). split; [exact E|]. repeat split; try (cbn; lia).
    left. repeat split; try lia. now replace (S j - 1) with j by lia.
  - eexists _, _, 101. split; [exact E|]. repeat split; try (cbn; lia).
    right. repeat split. assumption.
Qed.

Lemma generate_password_terminates_witness :
  exists (resp : response) (w' : world) (k : nat),
    generate_password (mkRequest 4 true true true true (PyString (lit "max")))
                      (boot (fun i => 23 * i)) = (Ok resp, w') /\
    status resp = 200 /\
    draws w' = 0 + k /\ choices w' = 0 + k * 4 /\ k <= 101 /\
    ((success_shape resp /\ 1 <= k <= 100 /\
      verdict (boot (fun i => 23 * i))
        (nth_candidate (boot (fun i => 23 * i))
           (build_char_set (mkRequest 4 true true true true (PyString (lit "max"))))
           4 (k - 1)) (PyString (lit "max")) = true)
     \/
     (warning_shape resp /\ k = 101 /\
      forall i, i < 100 ->
        verdict (boot (fun i => 23 * i))
          (nth_candidate (boot (fun i => 23 * i))
             (build_char_set (mkRequest 4 true true true true (PyString (lit "max"))))
             4 i) (PyString (lit "max")) = false)).
Proof.
  apply (generate_password_terminates
           (mkRequest 4 true true true true (PyString (lit "max")))
           (boot (fun i => 23 * i))).
  left. reflexivity.
Defined.

(** C10.  A call with a non-empty alphabet and parsed length [n] returns, on
    the success path and on the warning path alike, a password of exactly
    [max(n, 0)] characters, each a member of the alphabet; a length of zero or
    below gives the empty password, not an error. *)
Theorem generate_password_length (req : request) (w : world) :
  some_class req ->
  exists (resp : response) (w' : world) (password : str),
    generate_password req w = (Ok resp, w') /\
    (success_shape resp \/ warning_shape resp) /\
    password_of resp = Some password /\
    Z.of_nat (List.length password) = Z.max (pw_length req) 0 /\
    (forall c, In c password -> In c (build_char_set req)) /\
    (pw_length req <= 0 -> password = [])%Z.
Proof.
  intros Hc.
  assert (Hne : build_char_set req <> []) by now apply build_char_set_nonempty.
  assert (P : forall k,
    let password := nth_candidate w (build_char_set req) (Z.to_nat (pw_length req)) k in
    Z.of_nat (List.length password) = Z.max (pw_length req) 0 /\
    (forall c, In c password -> In c (build_char_set req)) /\
    (pw_length req <= 0 -> password = [])%Z).
  { intros k password. subst password. unfold nth_candidate. repeat split.
    - rewrite candidate_length. lia.
    - intros c. now apply candidate_in.
    - intros Hz. replace (Z.to_nat (pw_length req)) with 0 by lia. reflexivity. }
  destruct (generate_password_cases req w Hc) as [[j [_ [_ [_ E]]]] | [_ E]].
  - eexists _, _, _. split; [exact E|]. split; [now left|].
    split; [apply lookup_head|]. apply P.
  - eexists _, _, _. split; [exact E|]. split; [now right|].
    split; [apply lookup_head|]. apply P.
Qed.

Lemma generate_password_length_witness :
  exists (resp : response) (w' : world) (password : str),
    generate_password (mkRequest (-2) false false true false (PyString (lit "easy")))
                      (boot (fun i => i)) = (Ok resp, w') /\
    (success_shape resp \/ warning_shape resp) /\
    password_of resp = Some password /\
    Z.of_nat (List.length password) = Z.max (-2) 0 /\
    (forall c, In c password ->
       In c (build_char_set (mkRequest (-2) false false true false (PyString (lit "easy"))))) /\
    ((-2) <= 0 -> password = [])%Z.
Proof.
  apply (generate_password_length
           (mkRequest (-2) false false true false (PyString (lit "easy")))
           (boot (fun i => i))).
  right. right. left. reflexivity.
Defined.

(** C3.  When the handler returns the success shape, the password in it was
    accepted by the checker: at level 'max' its diversity is 4, at level
    'strong' at least 3, and at every level it has no run of three identical
    characters and contains no entry of the two tables, letter case
    ignored. *)
Theorem generate_password_success_accepted
    (req : request) (w w' : world) (resp : response) :
  loaded w ->
  generate_password req w = (Ok resp, w') ->
  success_shape resp ->
  exists password : str,
    body resp = [(lit "password", password)] /\
    check_password_strength password (strength_level req) w' = (Ok true, w') /\
    (strength_level req = PyString (lit "max") -> Spec.Diversity password 4) /\
    (strength_level req = PyString (lit "strong") ->
     exists d, Spec.Diversity password d /\ 3 <= d) /\
    ~ Spec.Repeats3 password /\
    (forall word, In word COMMON_WORDS_init -> ~ Spec.SubstringNoCase word password) /\
    (forall pattern, In pattern KEYBOARD_PATTERNS_init ->
     ~ Spec.SubstringNoCase pattern password).
Proof.
  intros Hl E Hs.
  destruct (build_char_set req) as [|c0 cs] eqn:Ecs.
  { unfold generate_password, try_except in E. rewrite Ecs in E.
    unfold ret in E. injection E as <- _. vm_compute in Hs. discriminate. }
  assert (Hc : some_class req)
    by (apply build_char_set_nonempty; rewrite Ecs; discriminate).
  destruct (generate_password_cases req w Hc) as [[j [_ [Hv [_ E']]]] | [_ E']];
    rewrite E' in E; injection E as <- <-.
  2: { unfold success_shape, keys in Hs. cbn in Hs. discriminate. }
  set (password := nth_candidate w (build_char_set req) (Z.to_nat (pw_length req)) j) in *.
  destruct (proj1 (verdict_true_iff w password (strength_level req) Hl) Hv)
    as [Hu Hlevel].
  apply universal_dot_iff in Hu; [|apply nth_candidate_no_newline].
  destruct Hu as [Hw [Hr Hk]].
  destruct level_names_distinct as [D1 [D2 D3]].
  exists password. repeat split.
  - rewrite check_password_strength_run.
    rewrite (verdict_tables _ w) by reflexivity. now rewrite Hv.
  - intros Hmax. rewrite Hmax in Hlevel.
    destruct Hlevel as [H | [[H _] | [_ H]]]; try assumption; congruence.
  - intros Hstrong. rewrite Hstrong in Hlevel.
    destruct Hlevel as [H | [[_ H] | [H _]]]; try assumption; congruence.
  - exact Hr.
  - intros word Hin Hsub. apply substring_lower_iff in Hsub. exact (Hw word Hin Hsub).
  - intros pattern Hin Hsub. apply substring_lower_iff in Hsub. exact (Hk pattern Hin Hsub).
Qed.

Lemma boot_loaded (tape : nat -> nat) : loaded (boot tape).
Proof. split; reflexivity. Defined.

Lemma generate_password_success_accepted_witness :
  exists password : str,
    [(lit "password", lit "]Pm9")] = [(lit "password", password)] /\
    check_password_strength password (PyString (lit "max"))
      (advance 20 5 (boot (fun i => 23 * i)))
    = (Ok true, advance 20 5 (boot (fun i => 23 * i))) /\
    (PyString (lit "max") = PyString (lit "max") -> Spec.Diversity password 4) /\
    (PyString (lit "max") = PyString (lit "strong") ->
     exists d, Spec.Diversity password d /\ 3 <= d) /\
    ~ Spec.Repeats3 password /\
    (forall word, In word COMMON_WORDS_init -> ~ Spec.SubstringNoCase word password) /\
    (forall pattern, In pattern KEYBOARD_PATTERNS_init ->
     ~ Spec.SubstringNoCase pattern password).
Proof.
  apply (generate_password_success_accepted
           (mkRequest 4 true true true true (PyString (lit "max")))
           (boot (fun i => 23 * i))
           (advance 20 5 (boot (fun i => 23 * i)))
           (jsonify [(lit "password", lit "]Pm9")] 200)).
  - apply boot_loaded.
  - vm_compute. reflexivity.
  - reflexivity.
Defined.

Lemma verdict_easy (w : world) (req : request) (k : nat) :
  loaded w ->
  let password := nth_candidate w (build_char_set req) (Z.to_nat (pw_length req)) k in
  verdict w password (PyString (lit "easy")) = true <-> Spec.Universal password.
Proof.
  intros Hl password.
  rewrite (verdict_true_iff w password _ Hl).
  rewrite (universal_dot_iff password) by apply nth_candidate_no_newline.
  split; [tauto|]. intros H. split; [assumption | now left].
Qed.

(** C5, as amended.  At level 'easy' a call with a non-empty alphabet returns a
    password with status 200: in the success shape when at least one of the
    100 drawn candidates passes the three universal rules, in the warning
    shape when none does. *)
Theorem generate_password_easy (req : request) (w : world) :
  some_class req ->
  strength_level req = PyString (lit "easy") ->
  loaded w ->
  let cs := build_char_set req in
  let n := Z.to_nat (pw_length req) in
  exists (resp : response) (w' : world) (password : str),
    generate_password req w = (Ok resp, w') /\
    status resp = 200 /\
    password_of resp = Some password /\
    ((success_shape resp /\
      exists k, k < 100 /\ Spec.Universal (nth_candidate w cs n k))
     \/
     (warning_shape resp /\
      forall k, k < 100 -> ~ Spec.Universal (nth_candidate w cs n k))).
Proof.
  intros Hc Hlevel Hl cs n.
  destruct (generate_password_cases req w Hc) as [[j [Hj [Hv [_ E]]]] | [Hall E]];
    rewrite Hlevel in *.
  - fold cs n in E, Hv. eexists _, _, _. split; [exact E|]. split; [reflexivity|].
    split; [apply lookup_head|]. left. split; [reflexivity|].
    exists j. split; [assumption|]. now apply (verdict_easy w req j Hl).
  - fold cs n in E, Hall. eexists _, _, _. split; [exact E|]. split; [reflexivity|].
    split; [apply lookup_head|]. right. split; [reflexivity|].
    intros k Hk Hu. apply (verdict_easy w req k Hl) in Hu.
    fold cs n in Hu. rewrite (Hall k Hk) in Hu. discriminate.
Qed.

Lemma generate_password_easy_witness :
  exists (resp : response) (w' : world) (password : str),
    generate_password (mkRequest 16 true true true true (PyString (lit "easy")))
                      (boot (fun i => 7 * i)) = (Ok resp, w') /\
    status resp = 200 /\
    password_of resp = Some password /\
    ((success_shape resp /\
      exists k, k < 100 /\
        Spec.Universal
          (nth_candidate (boot (fun i => 7 * i))
             (build_char_set (mkRequest 16 true true true true (PyString (lit "easy"))))
             16 k))
     \/
     (warning_shape resp /\
      forall k, k < 100 ->
        ~ Spec.Universal
            (nth_candidate (boot (fun i => 7 * i))
               (build_char_set (mkRequest 16 true true true true (PyString (lit "easy"))))
               16 k))).
Proof.
  apply (generate_password_easy
           (mkRequest 16 true true true true (PyString (lit "easy")))
           (boot (fun i => 7 * i))).
  - left. reflexivity.
  - reflexivity.
  - apply boot_loaded.
Defined.

(** C5, as stated, fails: with the four classes, length 3 and level 'easy', an
    entropy tape of zeros draws AAA in each of the 100 attempts, the repetition
    rule rejects each, and the handler returns the warning shape. *)
Lemma generate_password_easy_can_warn :
  let req := mkRequest 3 true true true true (PyString (lit "easy")) in
  let w := boot (fun _ => 0) in
  let resp := jsonify [(lit "password", lit "AAA"); (lit "warning", warning_text)] 200 in
  (some_class req /\ strength_level req = PyString (lit "easy") /\
   generate_password req w = (Ok resp, advance 303 101 w) /\
   warning_shape resp /\ ~ success_shape resp) /\
  ~ (forall (req : request) (w w' : world) (resp : response),
       some_class req -> strength_level req = PyString (lit "easy") ->
       generate_password req w = (Ok resp, w') -> success_shape resp).
Proof.
  cbv zeta.
  assert (E : generate_password (mkRequest 3 true true true true (PyString (lit "easy")))
                (boot (fun _ => 0))
              = (Ok (jsonify [(lit "password", lit "AAA"); (lit "warning", warning_text)] 200),
                 advance 303 101 (boot (fun _ => 0))))
    by (vm_compute; reflexivity).
  assert (N : ~ success_shape
                (jsonify [(lit "password", lit "AAA"); (lit "warning", warning_text)] 200))
    by (intros H; vm_compute in H; discriminate).
  split.
  - repeat split; try assumption. left. reflexivity.
  - intros H. apply N.
    apply (H (mkRequest 3 true true true true (PyString (lit "easy")))
             (boot (fun _ => 0)) (advance 303 101 (boot (fun _ => 0))));
      [left; reflexivity | reflexivity | exact E].
Qed.

(** C6.  When the 100 attempts are all rejected, the handler draws once more,
    from the entropy cells that follow those of the 100 attempts, and returns
    that draw with the warning whatever the checker would say of it: the
    checker is not consulted, the state has moved by 101 draws, and the
    password is a function of the cells of the last draw alone, so any tape
    that agrees on those cells gives the same password, whatever it holds in
    the cells of the rejected attempts. *)
Theorem generate_password_fallback_fresh (req : request) (w : world) :
  some_class req ->
  let cs := build_char_set req in
  let n := Z.to_nat (pw_length req) in
  (forall k, k < 100 ->
     verdict w (nth_candidate w cs n k) (strength_level req) = false) ->
  let fresh := candidate cs (entropy w) (choices w + 100 * n) n in
  generate_password req w
  = (Ok (jsonify [(lit "password", fresh); (lit "warning", warning_text)] 200),
     advance (101 * n) 101 w) /\
  (forall tape' : nat -> nat,
     (forall i, choices w + 100 * n <= i < choices w + 101 * n -> tape' i = entropy w i) ->
     candidate cs tape' (choices w + 100 * n) n = fresh).
Proof.
  intros Hc cs n Hall fresh. split.
  - destruct (generate_password_cases req w Hc) as [[j [Hj [Hv _]]] | [_ E]].
    + fold cs n in Hv. rewrite (Hall j Hj) in Hv. discriminate.
    + exact E.
  - intros tape' Hagree. apply candidate_ext. intros i Hi. apply Hagree. lia.
Qed.

(** An instance in which the fallback draw, STU, would have been accepted and
    is returned with the warning all the same, after 100 draws of AAA. *)
Lemma generate_password_fallback_fresh_witness :
  let req := mkRequest 3 true true true true (PyString (lit "easy")) in
  let w := boot (fun i => if i <? 300 then 0 else i) in
  verdict w (lit "STU") (PyString (lit "easy")) = true /\
  nth_candidate w (build_char_set req) 3 99 = lit "AAA" /\
  candidate (build_char_set req) (entropy w) (choices w + 100 * 3) 3 = lit "STU" /\
  generate_password req w
  = (Ok (jsonify [(lit "password",
                   candidate (build_char_set req) (entropy w) (choices w + 100 * 3) 3);
                  (lit "warning", warning_text)] 200),
     advance (101 * 3) 101 w) /\
  (forall tape' : nat -> nat,
     (forall i, choices w + 100 * 3 <= i < choices w + 101 * 3 -> tape' i = entropy w i) ->
     candidate (build_char_set req) tape' (choices w + 100 * 3) 3
     = candidate (build_char_set req) (entropy w) (choices w + 100 * 3) 3).
Proof.
  cbv zeta.
  split; [vm_compute; reflexivity|].
  split; [vm_compute; reflexivity|].
  split; [vm_compute; reflexivity|].
  apply (generate_password_fallback_fresh
           (mkRequest 3 true true true true (PyString (lit "easy")))
           (boot (fun i => if i <? 300 then 0 else i))).
  - left. reflexivity.
  - intros k Hk.
    assert (B : forallb
                  (fun k =>
                     negb (verdict (boot (fun i => if i <? 300 then 0 else i))
                             (nth_candidate (boot (fun i => if i <? 300 then 0 else i))
                                (build_char_set
                                   (mkRequest 3 true true true true (PyString (lit "easy"))))
                                3 k)
                             (PyString (lit "easy"))))
                  (seq 0 100) = true) by (vm_compute; reflexivity).
    rewrite forallb_forall in B.
    apply negb_true_iff. apply B. apply in_seq. lia.
Defined.

Lemma verdict_unknown (w : world) (password : str) (level : pyvalue) :
  unknown_level level -> verdict w password level = false.
Proof.
  intros [H1 [H2 H3]]. rewrite verdict_eq.
  destruct (py_eq level (lit "easy")) eqn:E1; [apply py_eq_iff in E1; contradiction|].
  destruct (py_eq level (lit "strong")) eqn:E2; [apply py_eq_iff in E2; contradiction|].
  destruct (py_eq level (lit "max")) eqn:E3; [apply py_eq_iff in E3; contradiction|].
  apply andb_false_r.
Qed.

(** C7.  For a level that is none of 'easy', 'strong' and 'max' (a string or a
    value of another type), the checker returns false for every candidate, in
    every state, without raising and without changing the state; and every
    call of the handler with such a level and a non-empty alphabet runs the
    100 attempts without success and returns the warning shape. *)
Theorem unknown_level_rejected (level : pyvalue) :
  unknown_level level ->
  (forall (password : str) (w : world),
     check_password_strength password level w = (Ok false, w)) /\
  (forall (req : request) (w : world),
     strength_level req = level -> some_class req ->
     exists password : str,
       generate_password req w
       = (Ok (jsonify [(lit "password", password); (lit "warning", warning_text)] 200),
          advance (101 * Z.to_nat (pw_length req)) 101 w) /\
       warning_shape
         (jsonify [(lit "password", password); (lit "warning", warning_text)] 200)).
Proof.
  intros Hu. split.
  - intros password w. rewrite check_password_strength_run.
    now rewrite (verdict_unknown w password level Hu).
  - intros req w Hlevel Hc.
    destruct (generate_password_cases req w Hc) as [[j [_ [Hv _]]] | [_ E]].
    + rewrite Hlevel, (verdict_unknown _ _ _ Hu) in Hv. discriminate.
    + eexists. split; [exact E | reflexivity].
Qed.

Lemma unknown_level_rejected_witness :
  (forall (password : str) (w : world),
     check_password_strength password PyOther w = (Ok false, w)) /\
  (forall (req : request) (w : world),
     strength_level req = PyOther -> some_class req ->
     exists password : str,
       generate_password req w
       = (Ok (jsonify [(lit "password", password); (lit "warning", warning_text)] 200),
          advance (101 * Z.to_nat (pw_length req)) 101 w) /\
       warning_shape
         (jsonify [(lit "password", password); (lit "warning", warning_text)] 200)).
Proof.
  apply (unknown_level_rejected PyOther).
  repeat split; discriminate.
Defined.

Lemma any_false (f : ascii -> bool) (s : str) :
  (forall c, In c s -> f c = false) -> any f s = false.
Proof.
  intros H. unfold any. apply not_true_is_false. intros E.
  apply existsb_exists in E. destruct E as [c [Hin Hf]].
  rewrite (H c Hin) in Hf. discriminate.
Qed.

(** A string of digits has no uppercase letter. *)
Lemma digits_no_upper (s : str) :
  (forall c, In c s -> In c digits) -> any isupper s = false.
Proof.
  intros H. apply any_false. intros c Hin.
  assert (B : forallb (fun c => negb (isupper c)) digits = true)
    by (vm_compute; reflexivity).
  rewrite forallb_forall in B. apply negb_true_iff. apply B. now apply H.
Qed.

(** C8.  With the digits as the only class and level 'max', whatever the
    length and the entropy, no candidate has diversity 4 (no candidate has an
    uppercase letter), the 100 attempts are rejected and the handler returns
    the warning shape. *)
Theorem digits_only_max_warns (length : Z) (w : world) :
  let req := mkRequest length false false true false (PyString (lit "max")) in
  let n := Z.to_nat length in
  build_char_set req = digits /\
  (forall k d, Spec.Diversity (nth_candidate w digits n k) d -> d < 4) /\
  (forall k, verdict w (nth_candidate w digits n k) (PyString (lit "max")) = false) /\
  exists password : str,
    generate_password req w
    = (Ok (jsonify [(lit "password", password); (lit "warning", warning_text)] 200),
       advance (101 * n) 101 w) /\
    warning_shape
      (jsonify [(lit "password", password); (lit "warning", warning_text)] 200).
Proof.
  intros req n.
  assert (Hcount : forall k, char_type_count (nth_candidate w digits n k) < 4).
  { intros k. unfold char_type_count.
    rewrite (digits_no_upper (nth_candidate w digits n k)).
    - cbn [sum fold_right].
      destruct (any islower _), (any isdigit _), (any _ _); cbn; lia.
    - intros c. apply candidate_in. discriminate. }
  assert (Hv : forall k,
             verdict w (nth_candidate w digits n k) (PyString (lit "max")) = false).
  { intros k. rewrite verdict_eq.
    replace (py_eq (PyString (lit "max")) (lit "easy")) with false by reflexivity.
    replace (py_eq (PyString (lit "max")) (lit "strong")) with false by reflexivity.
    replace (py_eq (PyString (lit "max")) (lit "max")) with true by reflexivity.
    replace (char_type_count (nth_candidate w digits n k) =? 4) with false.
    - apply andb_false_r.
    - symmetry. apply Nat.eqb_neq. specialize (Hcount k). lia. }
  split; [reflexivity|]. split; [|split].
  - intros k d Hd. apply diversity_iff in Hd. subst d. apply Hcount.
  - exact Hv.
  - assert (Hc : some_class req) by (right; right; left; reflexivity).
    destruct (generate_password_cases req w Hc) as [[j [_ [H _]]] | [_ E]].
    + change (build_char_set req) with digits in H.
      change (Z.to_nat (pw_length req)) with n in H.
      change (strength_level req) with (PyString (lit "max")) in H.
      rewrite Hv in H. discriminate.
    + eexists. split; [exact E | reflexivity].
Qed.

(** * Further properties of the checker and the handler *)

(** ** The levels are ordered *)

Lemma level_self (name : str) : py_eq (PyString name) name = true.
Proof. now apply py_eq_iff. Qed.

Lemma check_true_verdict (password : str) (level : pyvalue) (w : world) :
  check_password_strength password level w = (Ok true, w) <->
  verdict w password level = true.
Proof.
  rewrite check_password_strength_run. split.
  - intros E. now injection E.
  - now intros ->.
Qed.

Lemma check_false_verdict (password : str) (level : pyvalue) (w : world) :
  check_password_strength password level w = (Ok false, w) <->
  verdict w password level = false.
Proof.
  rewrite check_password_strength_run. split.
  - intros E. now injection E.
  - now intros ->.
Qed.

(** X1.  A password the checker accepts at some level is accepted at level
    'easy', and one accepted at level 'max' is accepted at level 'strong': the
    levels only add conditions, 'max' being the strictest. *)
Theorem accepted_level_order (password : str) (level : pyvalue) (w : world) :
  check_password_strength password level w = (Ok true, w) ->
  check_password_strength password (PyString (lit "easy")) w = (Ok true, w) /\
  (level = PyString (lit "max") ->
   check_password_strength password (PyString (lit "strong")) w = (Ok true, w)).
Proof.
  rewrite !check_true_verdict, !verdict_eq, !andb_true_iff.
  intros [[[H1 H2] H3] H4]. split.
  - rewrite level_self. repeat split; assumption.
  - intros ->.
    replace (py_eq (PyString (lit "max")) (lit "easy")) with false in H4 by reflexivity.
    replace (py_eq (PyString (lit "max")) (lit "strong")) with false in H4 by reflexivity.
    rewrite level_self in H4. apply Nat.eqb_eq in H4.
    replace (py_eq (PyString (lit "strong")) (lit "easy")) with false by reflexivity.
    rewrite level_self, H4. repeat split; assumption.
Qed.

Lemma accepted_level_order_witness :
  check_password_strength (lit "]Pm9") (PyString (lit "easy")) (boot (fun i => i))
  = (Ok true, boot (fun i => i)) /\
  (PyString (lit "max") = PyString (lit "max") ->
   check_password_strength (lit "]Pm9") (PyString (lit "strong")) (boot (fun i => i))
   = (Ok true, boot (fun i => i))).
Proof.
  apply (accepted_level_order (lit "]Pm9") (PyString (lit "max")) (boot (fun i => i))).
  vm_compute. reflexivity.
Defined.

(** ** Rejection by a universal rule survives padding *)

Lemma substring_extend (entry pre s post : str) :
  Spec.Substring entry s -> Spec.Substring entry (pre ++ s ++ post).
Proof.
  intros [a [b ->]]. exists (pre ++ a), (b ++ post).
  now rewrite <- !app_assoc.
Qed.

Lemma any_str_in_extend (table : list str) (pre s post : str) :
  any (fun entry => str_in entry (lower s)) table = true ->
  any (fun entry => str_in entry (lower (pre ++ s ++ post))) table = true.
Proof.
  unfold any. rewrite !existsb_exists. intros [entry [Hin H]].
  exists entry. split; [assumption|].
  apply str_in_iff. rewrite !lower_app. apply substring_extend.
  now apply str_in_iff.
Qed.

Lemma re_search_repeat_extend (pre s post : str) :
  re_search_repeat s = true -> re_search_repeat (pre ++ s ++ post) = true.
Proof.
  rewrite !re_search_repeat_iff. intros [a [c [b [Hc ->]]]].
  exists (pre ++ a), c, (b ++ post). split; [assumption|].
  now rewrite <- !app_assoc.
Qed.

(** X2.  A password that the checker rejects at level 'easy', that is by one of
    the three universal rules, stays rejected at every level whatever is put
    before and after it. *)
Theorem universal_rejection_extends
    (password pre post : str) (level : pyvalue) (w : world) :
  check_password_strength password (PyString (lit "easy")) w = (Ok false, w) ->
  check_password_strength (pre ++ password ++ post) level w = (Ok false, w).
Proof.
  rewrite !check_false_verdict, !verdict_eq, level_self, andb_true_r.
  intros H.
  destruct (any (fun word => str_in word (lower password)) (COMMON_WORDS w)) eqn:A.
  { now rewrite (any_str_in_extend _ pre password post A). }
  destruct (re_search_repeat password) eqn:B.
  { rewrite (re_search_repeat_extend pre password post B).
    now rewrite andb_false_r. }
  destruct (any (fun pattern => str_in pattern (lower password)) (KEYBOARD_PATTERNS w)) eqn:C.
  { rewrite (any_str_in_extend _ pre password post C).
    now rewrite andb_false_r. }
  discriminate.
Qed.

Lemma universal_rejection_extends_witness :
  check_password_strength (lit "X7" ++ lit "aaa" ++ lit "!q") (PyString (lit "max"))
    (boot (fun i => i))
  = (Ok false, boot (fun i => i)).
Proof.
  apply (universal_rejection_extends (lit "aaa") (lit "X7") (lit "!q")
           (PyString (lit "max")) (boot (fun i => i))).
  vm_compute. reflexivity.
Defined.

(** ** Diversity is bounded by the length and by the policy *)

(** The four classes are pairwise disjoint. *)
Lemma class_count_le_1 (c : ascii) : class_count c <= 1.
Proof.
  apply Nat.leb_le.
  destruct c as [[] [] [] [] [] [] [] []]; vm_compute; reflexivity.
Qed.

Lemma b2n_orb_le (a b : bool) : Nat.b2n (a || b) <= Nat.b2n a + Nat.b2n b.
Proof. destruct a, b; simpl; lia. Qed.

Lemma char_type_count_eq (s : str) :
  char_type_count s
  = Nat.b2n (any isupper s) + Nat.b2n (any islower s) + Nat.b2n (any isdigit s)
    + Nat.b2n (any (fun c => char_in c punctuation) s).
Proof.
  unfold char_type_count, sum. cbn [fold_right].
  destruct (any isupper s), (any islower s), (any isdigit s),
    (any (fun c => char_in c punctuation) s); reflexivity.
Qed.

Lemma char_type_count_le_length (s : str) : char_type_count s <= List.length s.
Proof.
  rewrite char_type_count_eq. induction s as [|c s IH]; [simpl; lia|].
  pose proof (class_count_le_1 c) as Hc. unfold class_count in Hc.
  unfold any in *. cbn [existsb List.length].
  pose proof (b2n_orb_le (isupper c) (existsb isupper s)).
  pose proof (b2n_orb_le (islower c) (existsb islower s)).
  pose proof (b2n_orb_le (isdigit c) (existsb isdigit s)).
  pose proof (b2n_orb_le (char_in c punctuation)
                (existsb (fun c => char_in c punctuation) s)).
  lia.
Qed.

Lemma verdict_true_level (w : world) (password : str) (level : pyvalue) :
  verdict w password level = true ->
  (level = PyString (lit "strong") -> 3 <= char_type_count password) /\
  (level = PyString (lit "max") -> char_type_count password = 4).
Proof.
  rewrite verdict_eq, !andb_true_iff. intros [_ H]. split; intros ->.
  - replace (py_eq (PyString (lit "strong")) (lit "easy")) with false in H by reflexivity.
    rewrite level_self in H. now apply Nat.leb_le.
  - replace (py_eq (PyString (lit "max")) (lit "easy")) with false in H by reflexivity.
    replace (py_eq (PyString (lit "max")) (lit "strong")) with false in H by reflexivity.
    rewrite level_self in H. now apply Nat.eqb_eq.
Qed.

(** X3.  No character counts for two classes, so the number of classes a
    password shows is at most its length: a password the checker accepts at
    level 'strong' has at least 3 characters, and one it accepts at level
    'max' at least 4. *)
Theorem accepted_min_length (password : str) (level : pyvalue) (w : world) :
  check_password_strength password level w = (Ok true, w) ->
  (level = PyString (lit "strong") -> 3 <= List.length password) /\
  (level = PyString (lit "max") -> 4 <= List.length password).
Proof.
  rewrite check_true_verdict. intros H.
  destruct (verdict_true_level w password level H) as [Hs Hm].
  pose proof (char_type_count_le_length password).
  split; intros E; [specialize (Hs E) | specialize (Hm E)]; lia.
Qed.

Lemma accepted_min_length_witness :
  (PyString (lit "max") = PyString (lit "strong") -> 3 <= List.length (lit "]Pm9")) /\
  (PyString (lit "max") = PyString (lit "max") -> 4 <= List.length (lit "]Pm9")).
Proof.
  apply (accepted_min_length (lit "]Pm9") (PyString (lit "max")) (boot (fun i => i))).
  vm_compute. reflexivity.
Defined.

(** A character of the alphabet that belongs to a class has the flag of that
    class on. *)
Lemma class_needs_flag (req : request) (c : ascii) :
  In c (build_char_set req) ->
  (isupper c = true -> use_upper req = true) /\
  (islower c = true -> use_lower req = true) /\
  (isdigit c = true -> use_numbers req = true) /\
  (char_in c punctuation = true -> use_symbols req = true).
Proof.
  intros Hin.
  assert (B : forallb
                (fun c => implb (isupper c) (use_upper req)
                          && implb (islower c) (use_lower req)
                          && implb (isdigit c) (use_numbers req)
                          && implb (char_in c punctuation) (use_symbols req))
                (build_char_set req) = true).
  { unfold build_char_set.
    destruct (use_upper req), (use_lower req), (use_numbers req), (use_symbols req);
      vm_compute; reflexivity. }
  rewrite forallb_forall in B. specialize (B c Hin).
  rewrite !andb_true_iff in B. destruct B as [[[B1 B2] B3] B4].
  repeat split; intros H; rewrite H in *; assumption.
Qed.

Lemma b2n_any_le_flag (f : ascii -> bool) (flag : bool) (s : str) :
  (forall c, In c s -> f c = true -> flag = true) ->
  Nat.b2n (any f s) <= Nat.b2n flag.
Proof.
  intros H. destruct (any f s) eqn:E; [|simpl; lia].
  apply any_class_iff in E. destruct E as [c [Hin Hf]].
  rewrite (H c Hin Hf). simpl. lia.
Qed.

Lemma char_type_count_le_enabled (req : request) (s : str) :
  (forall c, In c s -> In c (build_char_set req)) ->
  char_type_count s <= enabled_classes req.
Proof.
  intros Hs. rewrite char_type_count_eq. unfold enabled_classes.
  pose proof (b2n_any_le_flag isupper (use_upper req) s
                (fun c Hin => proj1 (class_needs_flag req c (Hs c Hin)))).
  pose proof (b2n_any_le_flag islower (use_lower req) s
                (fun c Hin => proj1 (proj2 (class_needs_flag req c (Hs c Hin))))).
  pose proof (b2n_any_le_flag isdigit (use_numbers req) s
                (fun c Hin => proj1 (proj2 (proj2 (class_needs_flag req c (Hs c Hin)))))).
  pose proof (b2n_any_le_flag (fun c => char_in c punctuation) (use_symbols req) s
                (fun c Hin => proj2 (proj2 (proj2 (class_needs_flag req c (Hs c Hin)))))).
  lia.
Qed.

(** X4.  A request whose level asks for more classes than the policy enables
    or than the length has room for is never satisfied: at level 'strong' with
    fewer than 3 classes or a length below 3, and at level 'max' with fewer
    than 4 classes or a length below 4, the 100 attempts are all rejected and
    the handler returns the fallback password with the warning. *)
Theorem generate_password_unsatisfiable (req : request) (w : world) :
  some_class req ->
  (strength_level req = PyString (lit "strong") /\
   (enabled_classes req < 3 \/ (pw_length req < 3)%Z))
  \/
  (strength_level req = PyString (lit "max") /\
   (enabled_classes req < 4 \/ (pw_length req < 4)%Z)) ->
  exists password : str,
    generate_password req w
    = (Ok (jsonify [(lit "password", password); (lit "warning", warning_text)] 200),
       advance (101 * Z.to_nat (pw_length req)) 101 w).
Proof.
  intros Hc Hreq.
  destruct (generate_password_cases req w Hc) as [[j [_ [Hv _]]] | [_ E]];
    [exfalso | eexists; exact E].
  set (password := nth_candidate w (build_char_set req) (Z.to_nat (pw_length req)) j) in *.
  destruct (verdict_true_level w password _ Hv) as [Hs Hm].
  assert (Hlen : List.length password = Z.to_nat (pw_length req))
    by apply candidate_length.
  pose proof (char_type_count_le_length password) as Hl.
  assert (He : char_type_count password <= enabled_classes req).
  { apply char_type_count_le_enabled. intros c. apply candidate_in.
    now apply build_char_set_nonempty. }
  destruct Hreq as [[E Hb] | [E Hb]]; [specialize (Hs E) | specialize (Hm E)]; lia.
Qed.

Lemma generate_password_unsatisfiable_witness :
  exists password : str,
    generate_password (mkRequest 16 true true false false (PyString (lit "strong")))
                      (boot (fun i => 7 * i))
    = (Ok (jsonify [(lit "password", password); (lit "warning", warning_text)] 200),
       advance (101 * Z.to_nat 16) 101 (boot (fun i => 7 * i))).
Proof.
  apply (generate_password_unsatisfiable
           (mkRequest 16 true true false false (PyString (lit "strong")))
           (boot (fun i => 7 * i))).
  - left. reflexivity.
  - left. split; [reflexivity|]. left. vm_compute. lia.
Defined.

(** ** Short passwords at level 'easy' *)

Lemma search_first (w : world) (char_set : str) (n : nat) (level : pyvalue) (m k : nat) :
  verdict w (nth_candidate w char_set n k) level = true ->
  search w char_set n level (S m) k = Some k.
Proof. intros H. cbn [search]. now rewrite H. Qed.

Lemma substring_length (entry s : str) :
  Spec.Substring entry s -> List.length entry <= List.length s.
Proof. intros [pre [post ->]]. rewrite !length_app. lia. Qed.

(** A string of at most two characters breaks no universal rule: the entries
    of the tables have four characters or more, a run has three. *)
Lemma short_universal (s : str) : List.length s <= 2 -> UniversalDot s.
Proof.
  intros Hs.
  assert (T : forall table, forallb (fun e => 3 <=? List.length e) table = true ->
              forall entry, In entry table -> ~ Spec.Substring entry (lower s)).
  { intros table B entry Hin Hsub. rewrite forallb_forall in B.
    specialize (B entry Hin). apply Nat.leb_le in B.
    apply substring_length in Hsub. unfold lower in Hsub.
    rewrite length_map in Hsub. lia. }
  split; [|split].
  - apply T. vm_compute. reflexivity.
  - intros [pre [c [post [_ E]]]]. rewrite E, length_app in Hs. simpl in Hs. lia.
  - apply T. vm_compute. reflexivity.
Qed.

(** X5.  At level 'easy' a request for a length of 2 or less (zero and
    negative lengths included) with a non-empty alphabet succeeds at the first
    attempt: the response is \{password\} with the first candidate, after one
    draw. *)
Theorem generate_password_short_easy (req : request) (w : world) :
  some_class req ->
  loaded w ->
  strength_level req = PyString (lit "easy") ->
  (pw_length req <= 2)%Z ->
  let n := Z.to_nat (pw_length req) in
  generate_password req w
  = (Ok (jsonify [(lit "password", candidate (build_char_set req) (entropy w) (choices w) n)]
           200),
     advance n 1 w).
Proof.
  intros Hc Hl Hlevel Hlen n.
  apply build_char_set_nonempty in Hc.
  rewrite (generate_password_run req w Hc). fold n.
  change 100 with (S 99). rewrite search_first.
  - unfold nth_candidate. rewrite Nat.mul_0_l, Nat.add_0_r.
    rewrite (advance_eq (1 * n) n 1 1 w) by lia. reflexivity.
  - rewrite Hlevel. apply (verdict_true_iff w _ _ Hl). split; [|now left].
    apply short_universal. unfold nth_candidate. rewrite candidate_length.
    unfold n. lia.
Qed.

Lemma generate_password_short_easy_witness :
  generate_password (mkRequest 0 false false true false (PyString (lit "easy")))
                    (boot (fun i => i))
  = (Ok (jsonify [(lit "password", [])] 200), advance 0 1 (boot (fun i => i))).
Proof.
  apply (generate_password_short_easy
           (mkRequest 0 false false true false (PyString (lit "easy")))
           (boot (fun i => i))).
  - right. right. left. reflexivity.
  - apply boot_loaded.
  - reflexivity.
  - vm_compute. discriminate.
Defined.

(** ** The except clause is never reached *)

(** X6.  Once the request is parsed the handler raises nothing, so the except
    clause of lines 121-122 is not taken and status 500 is not returned: the
    response is the error with status 400 and an untouched state when the
    policy selects no class, and a password with status 200 otherwise
    ([secrets.choice] is never called on an empty alphabet). *)
Theorem generate_password_never_500 (req : request) (w : world) :
  exists (resp : response) (w' : world),
    generate_password req w = (Ok resp, w') /\
    status resp <> 500 /\
    ((build_char_set req = [] /\ status resp = 400 /\ error_shape resp /\ w' = w)
     \/
     (build_char_set req <> [] /\ status resp = 200 /\
      (success_shape resp \/ warning_shape resp))).
Proof.
  destruct (build_char_set req) as [|c0 cs] eqn:E.
  - unfold generate_password, try_except. rewrite E. unfold ret.
    eexists _, _. split; [reflexivity|]. split; [discriminate|].
    left. repeat split.
  - assert (Hc : some_class req)
      by (apply build_char_set_nonempty; rewrite E; discriminate).
    destruct (generate_password_cases req w Hc) as [[j [_ [_ [_ R]]]] | [_ R]];
      eexists _, _; (split; [exact R|]); (split; [discriminate|]); right;
      (split; [discriminate|]); split; try reflexivity; [left | right]; reflexivity.
Qed.

(** ** Every acceptable password can come out *)

Lemma index_of_lt (c : ascii) (seq : str) :
  In c seq -> index_of c seq < List.length seq.
Proof.
  induction seq as [|x seq IH]; simpl; [tauto|].
  destruct (Ascii.eqb x c) eqn:E; [lia|].
  intros [-> | H]; [rewrite Ascii.eqb_refl in E; discriminate|].
  specialize (IH H). lia.
Qed.

Lemma nth_index_of (c d : ascii) (seq : str) :
  In c seq -> nth (index_of c seq) seq d = c.
Proof.
  induction seq as [|x seq IH]; simpl; [tauto|].
  destruct (Ascii.eqb x c) eqn:E; [intros _; now apply Ascii.eqb_eq|].
  intros [-> | H]; [rewrite Ascii.eqb_refl in E; discriminate | now apply IH].
Qed.

Lemma pick_index_of (c : ascii) (char_set : str) :
  In c char_set -> pick char_set (index_of c char_set) = c.
Proof.
  intros H. rewrite (pick_index char_set _ zero) by now apply index_of_lt.
  now apply nth_index_of.
Qed.

Lemma candidate_tape_for (char_set : str) (pos : nat) (target : str) :
  (forall c, In c target -> In c char_set) ->
  candidate char_set (tape_for char_set pos target) pos (List.length target) = target.
Proof.
  revert pos. induction target as [|c t IH]; intros pos H; [reflexivity|].
  cbn [List.length candidate]. f_equal.
  - unfold tape_for. rewrite Nat.sub_diag. cbn [nth].
    apply pick_index_of. apply H. now left.
  - transitivity (candidate char_set (tape_for char_set (S pos) t) (S pos)
                    (List.length t)).
    + apply candidate_ext. intros i Hi. unfold tape_for.
      replace (i - pos) with (S (i - S pos)) by lia. reflexivity.
    + apply IH. intros x Hx. apply H. now right.
Qed.

(** X8.  The generator excludes no acceptable password: for every string of
    the requested length over the alphabet that the checker accepts at the
    requested level, there is an entropy tape on which the handler returns
    exactly that string, in the success shape, at the first attempt. *)
Theorem acceptable_password_reachable (req : request) (w : world) (target : str) :
  some_class req ->
  (forall c, In c target -> In c (build_char_set req)) ->
  List.length target = Z.to_nat (pw_length req) ->
  check_password_strength target (strength_level req) w = (Ok true, w) ->
  let w0 := with_entropy (tape_for (build_char_set req) (choices w) target) w in
  generate_password req w0
  = (Ok (jsonify [(lit "password", target)] 200), advance (List.length target) 1 w0).
Proof.
  intros Hc Hin Hlen Hcheck w0.
  apply build_char_set_nonempty in Hc.
  apply check_true_verdict in Hcheck.
  assert (Hcand : nth_candidate w0 (build_char_set req) (Z.to_nat (pw_length req)) 0
                  = target).
  { unfold nth_candidate, w0. cbn [with_entropy entropy choices].
    rewrite Nat.mul_0_l, Nat.add_0_r, <- Hlen. now apply candidate_tape_for. }
  rewrite (generate_password_run req w0 Hc).
  change 100 with (S 99). rewrite search_first.
  - rewrite Hcand, <- Hlen.
    rewrite (advance_eq (1 * List.length target) (List.length target) 1 1 w0) by lia.
    reflexivity.
  - rewrite Hcand. now rewrite (verdict_tables w0 w) by reflexivity.
Qed.

Lemma acceptable_password_reachable_witness :
  let req := mkRequest 8 true true true true (PyString (lit "max")) in
  let w := boot (fun _ => 0) in
  let w0 := with_entropy (tape_for (build_char_set req) (choices w) (lit "kT4!zQ9m")) w in
  generate_password req w0
  = (Ok (jsonify [(lit "password", lit "kT4!zQ9m")] 200),
     advance (List.length (lit "kT4!zQ9m")) 1 w0).
Proof.
  cbv zeta.
  apply (acceptable_password_reachable
           (mkRequest 8 true true true true (PyString (lit "max")))
           (boot (fun _ => 0)) (lit "kT4!zQ9m")).
  - left. reflexivity.
  - intros c Hc. apply char_in_iff.
    assert (B : forallb
                  (fun c => char_in c
                     (build_char_set
                        (mkRequest 8 true true true true (PyString (lit "max")))))
                  (lit "kT4!zQ9m") = true) by (vm_compute; reflexivity).
    rewrite forallb_forall in B. now apply B.
  - reflexivity.
  - vm_compute. reflexivity.
Defined.

(** ** The alphabet lists each character once *)

(** X9.  The alphabet of a policy has no repeated character, and 26, 26, 10
    and 32 characters for the classes upper, lower, digit and symbol that are
    enabled; so each of its characters is selected by exactly one index, and a
    uniform index gives every character the same chance. *)
Theorem build_char_set_nodup (req : request) :
  let cs := build_char_set req in
  NoDup cs /\
  List.length cs
  = 26 * Nat.b2n (use_upper req) + 26 * Nat.b2n (use_lower req)
    + 10 * Nat.b2n (use_numbers req) + 32 * Nat.b2n (use_symbols req) /\
  (forall i j, i < List.length cs -> j < List.length cs ->
     pick cs i = pick cs j -> i = j).
Proof.
  intros cs.
  assert (N : NoDup cs).
  { assert (E : nodup ascii_dec cs = cs).
    { unfold cs, build_char_set.
      destruct (use_upper req), (use_lower req), (use_numbers req), (use_symbols req);
        vm_compute; reflexivity. }
    rewrite <- E. apply NoDup_nodup. }
  split; [exact N|]. split.
  - unfold cs, build_char_set.
    destruct (use_upper req), (use_lower req), (use_numbers req), (use_symbols req);
      vm_compute; reflexivity.
  - intros i j Hi Hj E.
    rewrite (pick_index cs i zero Hi), (pick_index cs j zero Hj) in E.
    exact (proj1 (NoDup_nth cs zero) N i j Hi Hj E).
Qed.

(** ** Two table entries decide nothing *)

Lemma in_without (entry e : str) (table : list str) :
  In e table -> e = entry \/ In e (without entry table).
Proof.
  intros H. destruct (list_eq_dec ascii_dec e entry) as [->|N]; [now left|].
  right. apply filter_In. split; [assumption|].
  destruct (list_eq_dec ascii_dec e entry); [contradiction | reflexivity].
Qed.

Lemma without_in (entry e : str) (table : list str) :
  In e (without entry table) -> In e table.
Proof. intros H. now apply filter_In in H. Qed.

(** X10.  The entry '123456' of COMMON_WORDS and the entry 'qwerty' of
    KEYBOARD_PATTERNS change no answer of the checker: a password that
    contains '123456' contains the pattern '12345', and 'qwerty' is a common
    word too; with the two entries removed from their tables the checker
    returns, for every password and level, the boolean it returns with
    them. *)
Theorem redundant_table_entries (password : str) (level : pyvalue) (w : world) :
  loaded w ->
  let w' := with_tables (without (lit "123456") (COMMON_WORDS w))
                        (without (lit "qwerty") (KEYBOARD_PATTERNS w)) w in
  exists b : bool,
    check_password_strength password level w = (Ok b, w) /\
    check_password_strength password level w' = (Ok b, w') /\
    ~ In (lit "123456") (COMMON_WORDS w') /\ ~ In (lit "qwerty") (KEYBOARD_PATTERNS w').
Proof.
  intros [Hw Hk] w'. exists (verdict w password level).
  split; [apply check_password_strength_run|].
  split.
  - rewrite check_password_strength_run. f_equal. f_equal.
    apply (bool_of_iff _ _ (verdict w password level = true)); [|tauto].
    rewrite !verdict_eq. cbn [w' with_tables COMMON_WORDS KEYBOARD_PATTERNS].
    rewrite !andb_true_iff, !negb_true_iff, !any_str_in_false.
    rewrite Hw, Hk.
    assert (Q : In (lit "qwerty") (without (lit "123456") COMMON_WORDS_init))
      by (vm_compute; tauto).
    assert (P : In (lit "12345") (without (lit "qwerty") KEYBOARD_PATTERNS_init))
      by (vm_compute; tauto).
    split; intros [[[A B] C] D]; repeat split; try assumption.
    + intros e He Hs.
      destruct (in_without (lit "123456") e _ He) as [-> | He']; [|exact (A e He' Hs)].
      apply (C (lit "12345") P).
      destruct Hs as [pre [post ->]]. exists pre, (lit "6" ++ post). reflexivity.
    + intros e He Hs.
      destruct (in_without (lit "qwerty") e _ He) as [-> | He']; [|exact (C e He' Hs)].
      exact (A (lit "qwerty") Q Hs).
    + intros e He. apply A. now apply without_in in He.
    + intros e He. apply C. now apply without_in in He.
  - cbn [w' with_tables COMMON_WORDS KEYBOARD_PATTERNS]. rewrite Hw, Hk.
    split; intros H; vm_compute in H; intuition discriminate.
Qed.

Lemma redundant_table_entries_witness :
  let w := boot (fun i => i) in
  let w' := with_tables (without (lit "123456") (COMMON_WORDS w))
                        (without (lit "qwerty") (KEYBOARD_PATTERNS w)) w in
  exists b : bool,
    check_password_strength (lit "A123456z") (PyString (lit "easy")) w = (Ok b, w) /\
    check_password_strength (lit "A123456z") (PyString (lit "easy")) w' = (Ok b, w') /\
    ~ In (lit "123456") (COMMON_WORDS w') /\ ~ In (lit "qwerty") (KEYBOARD_PATTERNS w').
Proof.
  cbv zeta.
  apply (redundant_table_entries (lit "A123456z") (PyString (lit "easy"))
           (boot (fun i => i))).
  apply boot_loaded.
Defined.

(** ** What the checker accepts *)

(** X11.  With the tables as the module initialises them, the checker accepts
    a password at a level exactly when no entry of COMMON_WORDS and no entry of
    KEYBOARD_PATTERNS occurs in the lowercased password, no character other
    than the newline stands three times in a row, and the level is 'easy', or
    'strong' with at least 3 character classes present, or 'max' with the 4
    of them. *)
Theorem check_password_strength_accepts_iff
    (password : str) (level : pyvalue) (w : world) :
  loaded w ->
  (check_password_strength password level w = (Ok true, w) <->
   (forall word, In word COMMON_WORDS_init -> ~ Spec.Substring word (lower password)) /\
   ~ (exists pre c post, c <> newline /\ password = pre ++ c :: c :: c :: post) /\
   (forall pattern, In pattern KEYBOARD_PATTERNS_init ->
      ~ Spec.Substring pattern (lower password)) /\
   (level = PyString (lit "easy") \/
    (level = PyString (lit "strong") /\ 3 <= char_type_count password) \/
    (level = PyString (lit "max") /\ char_type_count password = 4))).
Proof.
  intros Hl. rewrite check_true_verdict, (verdict_true_iff w password level Hl).
  unfold UniversalDot, Repeats3Dot, Spec.LevelCondition.
  split.
  - intros [[A [B C]] D]. repeat split; try assumption.
    destruct D as [D | [[D [d [Hd H3]]] | [D Hd]]].
    + now left.
    + right; left. split; [assumption|]. apply diversity_iff in Hd. now subst d.
    + right; right. split; [assumption|]. apply diversity_iff in Hd. now symmetry.
  - intros [A [B [C D]]]. repeat split; try assumption.
    destruct D as [D | [[D H3] | [D H4]]].
    + now left.
    + right; left. split; [assumption|].
      exists (char_type_count password). split; [now apply diversity_iff | assumption].
    + right; right. split; [assumption|]. apply diversity_iff. now symmetry.
Qed.

Lemma check_password_strength_accepts_iff_witness :
  check_password_strength (lit "kT4!zQ9m") (PyString (lit "max")) (boot (fun i => i))
  = (Ok true, boot (fun i => i)) <->
  (forall word, In word COMMON_WORDS_init ->
     ~ Spec.Substring word (lower (lit "kT4!zQ9m"))) /\
  ~ (exists pre c post, c <> newline /\ lit "kT4!zQ9m" = pre ++ c :: c :: c :: post) /\
  (forall pattern, In pattern KEYBOARD_PATTERNS_init ->
     ~ Spec.Substring pattern (lower (lit "kT4!zQ9m"))) /\
  (PyString (lit "max") = PyString (lit "easy") \/
   (PyString (lit "max") = PyString (lit "strong") /\
    3 <= char_type_count (lit "kT4!zQ9m")) \/
   (PyString (lit "max") = PyString (lit "max") /\
    char_type_count (lit "kT4!zQ9m") = 4)).
Proof.
  apply (check_password_strength_accepts_iff (lit "kT4!zQ9m") (PyString (lit "max"))
           (boot (fun i => i))).
  apply boot_loaded.
Defined.
